(** * Endpoint configuration of the Inferentia2 deployment notebook

    Source: [sagemaker/29_deploy_llms_on_inferentia2/sagemaker-notebook.ipynb],
    the code cell that binds [batch_size], [sequence_length] and builds the
    dictionary [config] handed to [HuggingFaceModel(env=config)].

    The cell is embedded shallowly:
    - Python integers are [Z];
    - the float produced by [x / 2] is a [spec_float] of the Standard
      Library's IEEE 754 specification, at the binary64 format;
    - exceptions are an explicit result type;
    - the dictionary is a [gmap string string];
    - the calls of the session cell into the libraries are answered by an
      oracle and logged. *)

From Stdlib Require Import ZArith Lia Bool String.
From Stdlib Require Import DecimalString DecimalZ.
From Stdlib Require Import Floats.SpecFloat.
From stdpp Require Import base option gmap strings.

Local Open Scope string_scope.
Local Open Scope Z_scope.

(** ** Exceptions *)

Inductive exn : Set :=
| NameError
| TypeError
| ValueError
| OverflowError.

Inductive res (A : Type) : Type :=
| Ok (a : A)
| Raise (e : exn).

Arguments Ok {A} a.
Arguments Raise {A} e.

#[global] Instance res_ret : MRet res := fun _ a => Ok a.
#[global] Instance res_bind : MBind res := fun _ _ f m =>
  match m with
  | Ok a => f a
  | Raise e => Raise e
  end.
#[global] Instance res_fmap : FMap res := fun _ _ f m =>
  match m with
  | Ok a => Ok (f a)
  | Raise e => Raise e
  end.

(** ** Python numbers *)

Module Py.

(** binary64: 53 bits of precision, infinities at exponent 1024. *)
Definition prec : Z := 53.
Definition emax : Z := 1024.

(** [x / 2] on an [int]: true division returns the float nearest to the
    exact quotient (ties to even) and raises [OverflowError] when the
    quotient is beyond the range of a float. The exact quotient is
    [x * 2^-1]. *)
Definition truediv_2 (x : Z) : res spec_float :=
  match binary_normalize prec emax x (-1) false with
  | S754_infinity _ => Raise OverflowError
  | f => Ok f
  end.

(** [int(f)] on a float: truncation towards zero. *)
Definition int (f : spec_float) : res Z :=
  match f with
  | S754_zero _ => Ok 0
  | S754_finite s m e => Ok (cond_Zopp s (Z.shiftl (Z.pos m) e))
  | S754_infinity _ => Raise OverflowError
  | S754_nan => Raise ValueError
  end.

(** [json.dumps(n)] on an [int]: its decimal numeral, with a leading
    minus sign when negative. The notebook's interpreter, Python 3.8.10,
    prints integers of any size. *)
Definition json_dumps (n : Z) : string :=
  NilEmpty.string_of_int (Z.to_int n).

(** The inverse reading of a decimal numeral, used to state what a
    dictionary value encodes. *)
Definition json_loads (s : string) : option Z :=
  Z.of_int <$> NilEmpty.int_of_string s.

End Py.

(** ** The configuration cell *)

Definition batch_size : Z := 4.
Definition sequence_length : Z := 2048.

(** The two computed integers of the dictionary display. *)
Definition max_batch_prefill_tokens (batch_size sequence_length : Z) : res Z :=
  Py.truediv_2 (sequence_length * batch_size) ≫= Py.int.

Definition max_batch_total_tokens (batch_size sequence_length : Z) : Z :=
  sequence_length * batch_size.

(** The entries of the dictionary display once their values are computed,
    inserted in the order of the display. The display is abstracted over the
    two names it reads and over the integer literal of its
    [MAX_INPUT_LENGTH] entry. *)
Definition config_entries (max_input_length batch_size sequence_length prefill : Z)
  : gmap string string :=
  <["MAX_BATCH_TOTAL_TOKENS" :=
      Py.json_dumps (max_batch_total_tokens batch_size sequence_length)]>
  (<["MAX_BATCH_PREFILL_TOKENS" := Py.json_dumps prefill]>
  (<["MAX_TOTAL_TOKENS" := Py.json_dumps sequence_length]>
  (<["MAX_INPUT_LENGTH" := Py.json_dumps max_input_length]>
  (<["MAX_CONCURRENT_REQUESTS" := Py.json_dumps batch_size]>
  (<["HF_MODEL_ID" := "aws-neuron/zephyr-7b-seqlen-2048-bs-4-cores-2"]>
   ∅))))).

(** The dictionary display: it raises what [int(sequence_length*batch_size / 2)]
    raises, all other values being total. *)
Definition config_with (max_input_length batch_size sequence_length : Z)
  : res (gmap string string) :=
  prefill ← max_batch_prefill_tokens batch_size sequence_length;
  mret (config_entries max_input_length batch_size sequence_length prefill).

(** The display as the cell writes it: the literal is 1512. *)
Definition config_of (batch_size sequence_length : Z) : res (gmap string string) :=
  config_with 1512 batch_size sequence_length.

(** The dictionary the notebook builds. *)
Definition config : res (gmap string string) :=
  config_of batch_size sequence_length.

(** ** Auxiliary notions for the rounding proofs *)

(** What [j] right shifts of the mantissa [P] have produced: the kept part
    [shr_m], the round bit [shr_r] and the sticky bit [shr_s], which is set
    when the bits below the round bit are not all zero. *)
Definition shr_inv (P : Z) (j : Z) (mrs : shr_record) : Prop :=
  exists t, 0 <= t < 2 ^ j
    /\ 2 * P = shr_m mrs * 2 ^ (j + 1) + Z.b2z (shr_r mrs) * 2 ^ j + t
    /\ (shr_s mrs = true <-> 0 < t)
    /\ 0 <= shr_m mrs.

(** The least magnitude whose half rounds beyond the largest float. *)
Definition overflow_bound : Z := 2 ^ 1025 - 2 ^ 971.

(** The integer a dictionary entry encodes. *)
Definition int_field (d : gmap string string) (k : string) : option Z :=
  d !! k ≫= Py.json_loads.

(** ** The session cell

    The first code cell of the notebook creates a session, chooses the
    bucket, resolves the execution role and creates the session again with
    the bucket. Its calls into [sagemaker] and [boto3] are answered by an
    oracle; the cell's own control flow is what is modelled, together with
    the log of the calls it makes and of the lines it prints. *)

(** An expression either returns a value or raises an exception of the
    interpreter's exception type [E]. *)
Inductive outcome (E A : Type) : Type :=
| Return (a : A)
| Throw (e : E).

Arguments Return {E A} a.
Arguments Throw {E A} e.

Inductive event : Type :=
| NewSession (default_bucket : option string)
| DefaultBucket
| GetExecutionRole
| IamGetRole (RoleName : string)
| Print (line : string).

(** The answers of the libraries: [Session k b] is
    [sagemaker.Session(default_bucket=b)], [iam_role_arn k n] is
    [boto3.client('iam').get_role(RoleName=n)['Role']['Arn']], client creation
    and subscripts included. *)
Record sdk (E S : Type) : Type := {
  Session : option string -> outcome E S;
  default_bucket : S -> outcome E string;
  boto_region_name : S -> string;
  get_execution_role : outcome E string;
  iam_role_arn : string -> outcome E string
}.

Arguments Session {E S} _ _.
Arguments default_bucket {E S} _ _.
Arguments boto_region_name {E S} _ _.
Arguments get_execution_role {E S} _.
Arguments iam_role_arn {E S} _ _.

(** A computation with its log of events. *)
Record io (E A : Type) : Type := IO {
  log : list event;
  result : outcome E A
}.

Arguments IO {E A} log result.
Arguments log {E A} _.
Arguments result {E A} _.

#[global] Instance io_ret {E} : MRet (io E) := fun _ a => IO [] (Return a).
#[global] Instance io_bind {E} : MBind (io E) := fun _ _ f m =>
  match result m with
  | Return a => IO (log m ++ log (f a)) (result (f a))
  | Throw e => IO (log m) (Throw e)
  end.

Definition call {E A} (ev : event) (r : outcome E A) : io E A := IO [ev] r.

Definition print {E} (line : string) : io E unit := IO [Print line] (Return tt).

(** [try: m except C: handler], where [catches e] is [isinstance(e, C)]. *)
Definition try_except {E A} (m : io E A) (catches : E -> bool) (handler : io E A)
  : io E A :=
  match result m with
  | Return _ => m
  | Throw e => if catches e then IO (log m ++ log handler) (result handler) else m
  end.

(** What the cell leaves bound. *)
Record session_state (S : Type) : Type := {
  sess : S;
  sagemaker_session_bucket : option string;
  role : string
}.

Arguments sess {S} _.
Arguments sagemaker_session_bucket {S} _.
Arguments role {S} _.

(** The cell, abstracted over the value first given to
    [sagemaker_session_bucket] ([None] in the notebook). [sess], the result of
    a constructor, is never [None], so the test
    [sagemaker_session_bucket is None and sess is not None] is the test on the
    bucket alone. *)
Definition session_cell {E S} (is_ValueError : E -> bool) (k : sdk E S)
    (bucket : option string) : io E (session_state S) :=
  sess0 ← call (NewSession None) (Session k None);
  bucket' ← match bucket with
            | None => b ← call DefaultBucket (default_bucket k sess0); mret (Some b)
            | Some b => mret (Some b)
            end;
  role' ← try_except (call GetExecutionRole (get_execution_role k)) is_ValueError
            (call (IamGetRole "sagemaker_execution_role")
                  (iam_role_arn k "sagemaker_execution_role"));
  sess1 ← call (NewSession bucket') (Session k bucket');
  _ ← print ("sagemaker role arn: " +:+ role');
  _ ← print ("sagemaker session region: " +:+ boto_region_name k sess1);
  mret {| sess := sess1; sagemaker_session_bucket := bucket'; role := role' |}.

(** ** The inference cell *)

Inductive lookup_error : Set :=
| IndexError
| KeyError.

(** [s[n:]] for a string [s] and [n >= 0]. *)
Fixpoint slice_from (n : nat) (s : string) : string :=
  match n, s with
  | O, _ => s
  | S n', String _ s' => slice_from n' s'
  | S _, EmptyString => EmptyString
  end.

(** [chat[0]["generated_text"][len(prompt):]], the text the cell prints, for
    the list of dictionaries [chat] returned by [llm.predict]. *)
Definition generated_text (chat : list (gmap string string)) (prompt : string)
  : outcome lookup_error string :=
  match chat with
  | [] => Throw IndexError
  | d :: _ =>
      match d !! "generated_text" with
      | None => Throw KeyError
      | Some g => Return (slice_from (String.length prompt) g)
      end
  end.

(** An oracle shaped like the run recorded in the notebook, where the
    execution role is not available and the IAM lookup answers. *)
Definition exn_is_ValueError (e : exn) : bool :=
  match e with
  | ValueError => true
  | _ => false
  end.

Definition recorded_sdk : sdk exn (option string) := {|
  Session := fun b => Return b;
  default_bucket := fun _ => Return "sagemaker-us-east-1-558105141721";
  boto_region_name := fun _ => "us-east-1";
  get_execution_role := Throw ValueError;
  iam_role_arn := fun _ => Return "arn:aws:iam::558105141721:role/sagemaker_execution_role"
|}.

(** The same oracle with an execution role that fails otherwise. *)
Definition denied_sdk : sdk exn (option string) := {|
  Session := Session recorded_sdk;
  default_bucket := default_bucket recorded_sdk;
  boto_region_name := boto_region_name recorded_sdk;
  get_execution_role := Throw TypeError;
  iam_role_arn := iam_role_arn recorded_sdk
|}.

Example config_cell :
  config = Ok (<["MAX_BATCH_TOTAL_TOKENS" := "8192"]>
              (<["MAX_BATCH_PREFILL_TOKENS" := "4096"]>
              (<["MAX_TOTAL_TOKENS" := "2048"]>
              (<["MAX_INPUT_LENGTH" := "1512"]>
              (<["MAX_CONCURRENT_REQUESTS" := "4"]>
              (<["HF_MODEL_ID" := "aws-neuron/zephyr-7b-seqlen-2048-bs-4-cores-2"]>
               ∅)))))).
Proof. reflexivity. Qed.

(** ** Rounding lemmas for binary64 *)

Section Rounding.

Lemma digits2_pos_bounds (p : positive) :
  2 ^ (Z.pos (digits2_pos p) - 1) <= Z.pos p < 2 ^ Z.pos (digits2_pos p).
Proof.
  induction p as [p IH|p IH|]; simpl digits2_pos;
    [ change (Z.pos p~1) with (2 * Z.pos p + 1)
    | change (Z.pos p~0) with (2 * Z.pos p)
    | simpl; lia ];
    rewrite Pos2Z.inj_succ;
    replace (Z.succ (Z.pos (digits2_pos p)) - 1)
      with (Z.succ (Z.pos (digits2_pos p) - 1)) by lia;
    rewrite !Z.pow_succ_r by lia; lia.
Qed.

Lemma iter_xO_mul (p d : positive) :
  Z.pos (Pos.iter xO p d) = Z.pos p * 2 ^ Z.pos d.
Proof.
  induction d as [|d IH] using Pos.peano_ind.
  - simpl. lia.
  - rewrite Pos.iter_succ, Pos2Z.inj_succ, Z.pow_succ_r by lia.
    change (Z.pos (Pos.iter xO p d)~0) with (2 * Z.pos (Pos.iter xO p d)).
    rewrite IH. lia.
Qed.

Lemma iter_xO_digits (p d : positive) :
  digits2_pos (Pos.iter xO p d) = (digits2_pos p + d)%positive.
Proof.
  induction d as [|d IH] using Pos.peano_ind.
  - simpl. lia.
  - rewrite Pos.iter_succ. simpl. rewrite IH. lia.
Qed.

(** A mantissa that already has the canonical exponent is left alone. *)
Lemma binary_round_aux_canonical (sx : bool) (m : positive) (e : Z) :
  bounded Py.prec Py.emax m e = true ->
  binary_round_aux Py.prec Py.emax sx (Z.pos m) e loc_Exact = S754_finite sx m e.
Proof.
  unfold bounded, canonical_mantissa. intros [Hc He]%andb_true_iff.
  apply Z.eqb_eq in Hc.
  unfold binary_round_aux, shr_fexp. simpl Zdigits2. rewrite Hc, Z.sub_diag.
  simpl. rewrite Hc, Z.sub_diag. simpl. now rewrite He.
Qed.

Lemma digits2_pos_le_prec (p : positive) :
  Z.pos p < 2 ^ 53 -> Z.pos (digits2_pos p) <= 53.
Proof.
  intros Hp. destruct (digits2_pos_bounds p) as [Hlo _].
  apply Z.nlt_ge. intros Hd.
  assert (2 ^ 53 <= 2 ^ (Z.pos (digits2_pos p) - 1)) by (apply Z.pow_le_mono_r; lia).
  lia.
Qed.

(** Halving a mantissa of at most 53 bits is exact: the result is the
    mantissa shifted up to 53 bits, with the exponent lowered to match. *)
Lemma binary_round_half (sx : bool) (p : positive) :
  Z.pos p < 2 ^ 53 ->
  exists (m : positive) (e : Z),
    binary_round Py.prec Py.emax sx p (-1) = S754_finite sx m e
    /\ -53 <= e <= -1
    /\ Z.pos m = Z.pos p * 2 ^ (- e - 1).
Proof.
  intros Hp. pose proof (digits2_pos_le_prec p Hp) as Hd.
  pose proof (Pos2Z.is_pos (digits2_pos p)) as Hd0.
  unfold binary_round, shl_align.
  assert (Hf : fexp Py.prec Py.emax (Z.pos (digits2_pos p) + -1)
               = Z.pos (digits2_pos p) - 54)
    by (unfold fexp, emin, Py.prec, Py.emax; lia).
  rewrite Hf.
  destruct (Z.pos (digits2_pos p) - 54 - -1) as [|q|q] eqn:E.
  - exists p, (-1). split; [|split; [lia|simpl; lia]].
    apply binary_round_aux_canonical.
    unfold bounded, canonical_mantissa, fexp, emin, Py.prec, Py.emax.
    apply andb_true_iff; split; [apply Z.eqb_eq|apply Z.leb_le]; lia.
  - lia.
  - exists (Pos.iter xO p q), (Z.pos (digits2_pos p) - 54).
    split; [|split; [lia|]].
    + apply binary_round_aux_canonical.
      unfold bounded, canonical_mantissa. rewrite iter_xO_digits, Pos2Z.inj_add.
      unfold fexp, emin, Py.prec, Py.emax.
      apply andb_true_iff; split; [apply Z.eqb_eq|apply Z.leb_le]; lia.
    + rewrite iter_xO_mul. do 2 f_equal. lia.
Qed.

Lemma int_binary_round_half (sx : bool) (p : positive) :
  Z.pos p <= 2 ^ 53 ->
  exists f, binary_round Py.prec Py.emax sx p (-1) = f
            /\ Py.truediv_2 (cond_Zopp sx (Z.pos p)) = Ok f
            /\ Py.int f = Ok (cond_Zopp sx (Z.pos p / 2)).
Proof.
  intros Hp. destruct (Z.eq_dec (Z.pos p) (2 ^ 53)) as [Heq|Hne].
  - injection Heq as ->. destruct sx; eexists; repeat split; vm_compute; reflexivity.
  - destruct (binary_round_half sx p) as (m & e & Hr & He & Hm); [lia|].
    exists (S754_finite sx m e). split; [exact Hr|split].
    + unfold Py.truediv_2. destruct sx; simpl; rewrite Hr; reflexivity.
    + simpl. do 2 f_equal.
      rewrite Z.shiftl_div_pow2, Hm by lia.
      replace (2 ^ (- e)) with (2 * 2 ^ (- e - 1))
        by (rewrite <- Z.pow_succ_r by lia; f_equal; lia).
      apply Z.div_mul_cancel_r; [lia|]. apply Z.pow_nonzero; lia.
Qed.

(** Within 53 bits, [int(x / 2)] is the quotient truncated towards zero. *)
Lemma int_truediv_2_exact (x : Z) :
  - 2 ^ 53 <= x <= 2 ^ 53 ->
  Py.truediv_2 x ≫= Py.int = Ok (x ÷ 2).
Proof.
  intros Hx. destruct x as [|p|p].
  - reflexivity.
  - destruct (int_binary_round_half false p) as (f & _ & Ht & Hi); [lia|].
    simpl in Ht, Hi. rewrite Ht. simpl. rewrite Hi.
    f_equal. symmetry. apply Z.quot_div_nonneg; lia.
  - destruct (int_binary_round_half true p) as (f & _ & Ht & Hi); [lia|].
    change (Py.truediv_2 (Z.neg p) = Ok f) in Ht.
    simpl in Hi. rewrite Ht. simpl. rewrite Hi.
    f_equal. change (Z.neg p) with (- Z.pos p).
    rewrite Z.quot_opp_l by lia. f_equal. symmetry. apply Z.quot_div_nonneg; lia.
Qed.

End Rounding.

Section Shr.

Lemma shr_1_inv (P j : Z) (mrs : shr_record) :
  0 <= j -> shr_inv P j mrs -> shr_inv P (j + 1) (shr_1 mrs).
Proof.
  intros Hj (t & Ht & HP & Hs & Hm).
  destruct mrs as [m r s]. simpl in *.
  assert (H2 : 2 ^ (j + 1) = 2 * 2 ^ j) by (rewrite Z.pow_add_r by lia; lia).
  assert (H3 : 2 ^ (j + 1 + 1) = 2 * 2 ^ (j + 1)) by (rewrite (Z.pow_add_r 2 (j + 1)) by lia; lia).
  assert (H0 : 0 < 2 ^ j) by (apply Z.pow_pos_nonneg; lia).
  exists (Z.b2z r * 2 ^ j + t).
  assert (Hs' : (r || s = true) <-> 0 < Z.b2z r * 2 ^ j + t).
  { rewrite orb_true_iff, Hs. destruct r; simpl Z.b2z.
    - split; [lia|auto].
    - split; [intros [?|?]; [discriminate|lia]|intros; right; lia]. }
  assert (Hr : 0 <= Z.b2z r * 2 ^ j + t < 2 ^ (j + 1))
    by (destruct r; simpl Z.b2z; lia).
  destruct m as [|[p|p|]|p]; simpl; try lia;
    (split; [exact Hr|]); (split; [|split; [exact Hs'|lia]]).
  all: rewrite HP, H3, H2; try change (Z.pos p~1) with (2 * Z.pos p + 1);
       try change (Z.pos p~0) with (2 * Z.pos p); lia.
Qed.

Lemma iter_shr_1_inv (P : Z) (n : positive) :
  forall (j : Z) (mrs : shr_record),
    0 <= j -> shr_inv P j mrs ->
    shr_inv P (j + Z.pos n) (SpecFloat.iter_pos shr_1 n mrs).
Proof.
  induction n as [n IH|n IH|]; intros j mrs Hj H; simpl SpecFloat.iter_pos.
  - replace (j + Z.pos n~1) with (j + 1 + Z.pos n + Z.pos n) by lia.
    apply IH; [lia|]. apply IH; [lia|]. now apply shr_1_inv.
  - replace (j + Z.pos n~0) with (j + Z.pos n + Z.pos n) by lia.
    apply IH; [lia|]. now apply IH.
  - now apply shr_1_inv.
Qed.

Lemma shr_inv_init (P : Z) :
  0 <= P -> shr_inv P 0 (Build_shr_record P false false).
Proof. intros HP. exists 0. simpl. repeat split; lia. Qed.
End Shr.

Section Overflow.

Lemma digits2_pos_unique (n : Z) (q : positive) :
  2 ^ (n - 1) <= Z.pos q < 2 ^ n -> Z.pos (digits2_pos q) = n.
Proof.
  intros [Hlo Hhi]. destruct (digits2_pos_bounds q) as [Dlo Dhi].
  set (d := Z.pos (digits2_pos q)) in *.
  assert (0 < d) by (subst d; lia).
  assert (0 < n).
  { apply Z.nle_gt. intros Hn.
    destruct (Z.eq_dec n 0) as [->|]; [simpl in Hhi; lia|].
    rewrite Z.pow_neg_r in Hhi by lia. lia. }
  destruct (Z.lt_trichotomy d n) as [Hlt|[Heq|Hgt]]; [|exact Heq|].
  - assert (2 ^ d <= 2 ^ (n - 1)) by (apply Z.pow_le_mono_r; lia). lia.
  - assert (2 ^ n <= 2 ^ (d - 1)) by (apply Z.pow_le_mono_r; lia). lia.
Qed.

(** The last stage of rounding: a mantissa of 53 bits is kept, the carry
    [2^53] is renormalised to [2^52] one exponent up; the exponent is then
    checked against the range. *)
Lemma round_finish (sx : bool) (m2 e : Z) :
  2 ^ 52 <= m2 <= 2 ^ 53 -> -1074 <= e ->
  (let '(mrs, e2) := shr_fexp Py.prec Py.emax m2 e loc_Exact in
   match shr_m mrs with
   | Z0 => S754_zero sx
   | Z.pos m =>
       if e2 <=? Py.emax - Py.prec then S754_finite sx m e2 else S754_infinity sx
   | Z.neg _ => S754_nan
   end)
  = if (if m2 =? 2 ^ 53 then e + 1 else e) <=? 971
    then S754_finite sx (Z.to_pos (if m2 =? 2 ^ 53 then 2 ^ 52 else m2))
                     (if m2 =? 2 ^ 53 then e + 1 else e)
    else S754_infinity sx.
Proof.
  intros Hm He. destruct (Z.eqb_spec m2 (2 ^ 53)) as [->|Hne].
  - unfold shr_fexp.
    assert (Hf : fexp Py.prec Py.emax (Zdigits2 (2 ^ 53) + e) - e = 1)
      by (change (Zdigits2 (2 ^ 53)) with 54; unfold fexp, emin, Py.prec, Py.emax; lia).
    rewrite Hf. reflexivity.
  - destruct m2 as [|q|q]; try lia.
    unfold shr_fexp. simpl Zdigits2.
    assert (Hd : Z.pos (digits2_pos q) = 53) by (apply digits2_pos_unique; simpl (53 - 1); lia).
    assert (Hf : fexp Py.prec Py.emax (Z.pos (digits2_pos q) + e) - e = 0)
      by (rewrite Hd; unfold fexp, emin, Py.prec, Py.emax; lia).
    rewrite Hf. reflexivity.
Qed.

Lemma round_nearest_even_cases (m : Z) (r s : bool) :
  round_nearest_even m (loc_of_shr_record (Build_shr_record m r s))
  = if r && (s || negb (Z.even m)) then m + 1 else m.
Proof. destruct r, s; simpl; try reflexivity. now destruct (Z.even m). Qed.

(** Halving a mantissa of more than 53 bits: [k] low bits are shifted out,
    the kept part [m1] is rounded to nearest, ties to even. *)
Lemma binary_round_large (sx : bool) (p : positive) :
  2 ^ 53 <= Z.pos p ->
  exists (k m1 t : Z) (r s : bool),
    1 <= k /\ 2 ^ 52 * 2 ^ k <= Z.pos p < 2 ^ 53 * 2 ^ k
    /\ 0 <= t < 2 ^ k
    /\ 2 * Z.pos p = m1 * 2 ^ (k + 1) + Z.b2z r * 2 ^ k + t
    /\ (s = true <-> 0 < t)
    /\ 2 ^ 52 <= m1 < 2 ^ 53
    /\ binary_round Py.prec Py.emax sx p (-1) =
         let m2 := if r && (s || negb (Z.even m1)) then m1 + 1 else m1 in
         let e2 := if m2 =? 2 ^ 53 then k else k - 1 in
         if e2 <=? 971
         then S754_finite sx (Z.to_pos (if m2 =? 2 ^ 53 then 2 ^ 52 else m2)) e2
         else S754_infinity sx.
Proof.
  intros Hp. destruct (digits2_pos_bounds p) as [Dlo Dhi].
  set (d := Z.pos (digits2_pos p)) in *.
  assert (Hd : 54 <= d).
  { apply Z.nlt_ge. intros Hlt.
    assert (2 ^ d <= 2 ^ 53) by (apply Z.pow_le_mono_r; lia). lia. }
  assert (Hf : fexp Py.prec Py.emax (d + -1) = d - 54)
    by (unfold fexp, emin, Py.prec, Py.emax; lia).
  unfold binary_round, shl_align. fold d. rewrite Hf.
  destruct (d - 54 - -1) as [|k|k] eqn:E; try lia.
  pose proof (iter_shr_1_inv (Z.pos p) k 0 _ (Z.le_refl 0)
                (shr_inv_init (Z.pos p) (Pos2Z.is_nonneg p))) as Hinv.
  unfold binary_round_aux, shr_fexp at 1. simpl Zdigits2. fold d. rewrite Hf, E.
  unfold shr. 
  destruct (SpecFloat.iter_pos shr_1 k _) as [m1 r s].
  destruct Hinv as (t & Ht & HP & Hs & Hm). simpl in Ht, HP, Hs, Hm.
  simpl shr_m. rewrite round_nearest_even_cases.
  assert (HK : d = Z.pos k + 53) by lia.
  replace (0 + Z.pos k + 1) with (Z.pos k + 1) in HP by lia.
  replace (0 + Z.pos k) with (Z.pos k) in Ht, HP by lia.
  assert (HW : 0 < 2 ^ Z.pos k) by (apply Z.pow_pos_nonneg; lia).
  assert (HW1 : 2 ^ (Z.pos k + 1) = 2 * 2 ^ Z.pos k)
    by (rewrite Z.pow_add_r by lia; lia).
  assert (Hlo : 2 ^ (d - 1) = 2 ^ 52 * 2 ^ Z.pos k)
    by (rewrite <- Z.pow_add_r by lia; f_equal; lia).
  assert (Hhi : 2 ^ d = 2 ^ 53 * 2 ^ Z.pos k)
    by (rewrite <- Z.pow_add_r by lia; f_equal; lia).
  assert (Hm1 : 2 ^ 52 <= m1 < 2 ^ 53).
  { rewrite HW1 in HP. rewrite Hlo in Dlo. rewrite Hhi in Dhi.
    change (2 ^ 52) with 4503599627370496 in *.
    change (2 ^ 53) with 9007199254740992 in *.
    set (W := 2 ^ Z.pos k) in *. clearbody W.
    split; destruct r; simpl Z.b2z in HP.
    1,2: apply Z.lt_succ_r; apply (Z.mul_lt_mono_pos_r W); lia.
    all: apply (Z.mul_lt_mono_pos_r W); lia. }
  exists (Z.pos k), m1, t, r, s.
  repeat (split; [first [lia | assumption | tauto]|]).
  set (m2 := if r && (s || negb (Z.even m1)) then m1 + 1 else m1).
  assert (Hm2 : 2 ^ 52 <= m2 <= 2 ^ 53)
    by (subst m2; destruct (r && (s || negb (Z.even m1))); lia).
  rewrite (round_finish sx m2 (-1 + Z.pos k) Hm2) by lia.
  replace (-1 + Z.pos k + 1) with (Z.pos k) by lia.
  replace (-1 + Z.pos k) with (Z.pos k - 1) by lia.
  reflexivity.
Qed.

Lemma binary_round_range (sx : bool) (p : positive) :
  (Z.pos p < overflow_bound
   /\ exists m e, binary_round Py.prec Py.emax sx p (-1) = S754_finite sx m e)
  \/ (overflow_bound <= Z.pos p
      /\ binary_round Py.prec Py.emax sx p (-1) = S754_infinity sx).
Proof.
  assert (HA : 0 < 2 ^ 971) by (apply Z.pow_pos_nonneg; lia).
  assert (HT : overflow_bound = (2 ^ 54 - 1) * 2 ^ 971) by reflexivity.
  change (2 ^ 54) with 18014398509481984 in HT.
  destruct (Z.lt_ge_cases (Z.pos p) (2 ^ 53)) as [Hsmall|Hbig].
  - left. split.
    + change (2 ^ 53) with 9007199254740992 in Hsmall. lia.
    + destruct (binary_round_half sx p Hsmall) as (m & e & Hr & _). eauto.
  - destruct (binary_round_large sx p Hbig)
      as (k & m1 & t & r & s & Hk & Hrange & Ht & HP & Hs & Hm1 & ->).
    change (2 ^ 52) with 4503599627370496 in *.
    change (2 ^ 53) with 9007199254740992 in *.
    assert (HW1 : 2 ^ (k + 1) = 2 * 2 ^ k) by (rewrite Z.pow_add_r by lia; lia).
    rewrite HW1 in HP. cbv zeta.
    destruct (Z.lt_trichotomy k 972) as [Hlt|[->|Hgt]].
    + left.
      assert (2 ^ k <= 2 ^ 971) by (apply Z.pow_le_mono_r; lia).
      split; [lia|].
      match goal with |- context [if ?b <=? 971 then _ else _] =>
        replace (b <=? 971) with true; [eauto|] end.
      symmetry. apply Z.leb_le. destruct (_ =? _); lia.
    + assert (HW : 2 ^ 972 = 2 * 2 ^ 971) by reflexivity.
      rewrite HW in *. set (A := 2 ^ 971) in *. clearbody A.
      destruct (Z.eq_dec m1 9007199254740991) as [->|Hne].
      * destruct r; simpl Z.b2z in HP; simpl.
        -- right. split; [lia|]. rewrite orb_true_r. reflexivity.
        -- left. split; [lia|]. eauto.
      * left.
        assert (Hmul : m1 * A <= 9007199254740990 * A)
          by (apply Z.mul_le_mono_nonneg_r; lia).
        assert (Hb : Z.b2z r <= 1) by (destruct r; simpl; lia).
        assert (Hbm : Z.b2z r * (2 * A) <= 2 * A) by (destruct r; simpl Z.b2z; lia).
        split; [lia|].
        replace ((if r && (s || negb (Z.even m1)) then m1 + 1 else m1)
                 =? 9007199254740992) with false
          by (symmetry; apply Z.eqb_neq; destruct (r && _); lia).
        simpl. eauto.
    + right.
      assert (2 ^ 973 <= 2 ^ k) by (apply Z.pow_le_mono_r; lia).
      assert (HW : 2 ^ 973 = 4 * 2 ^ 971) by reflexivity.
      split; [lia|].
      match goal with |- context [if ?b <=? 971 then _ else _] =>
        replace (b <=? 971) with false; [reflexivity|] end.
      symmetry. apply Z.leb_gt. destruct (_ =? _); lia.
Qed.

End Overflow.

(** ** Facts about the cell *)

Section Cell.

Lemma json_loads_dumps (n : Z) : Py.json_loads (Py.json_dumps n) = Some n.
Proof.
  unfold Py.json_loads, Py.json_dumps. rewrite NilEmpty.isi. simpl.
  now rewrite DecimalZ.of_to.
Qed.

Lemma json_dumps_inj (n m : Z) : Py.json_dumps n = Py.json_dumps m -> n = m.
Proof.
  intros H. apply (f_equal Py.json_loads) in H.
  rewrite !json_loads_dumps in H. congruence.
Qed.

Lemma overflow_bound_large : 2 ^ 53 < overflow_bound.
Proof. reflexivity. Qed.

(** [int(x / 2)] either returns or raises [OverflowError], according to the
    magnitude of [x]. *)
Lemma int_truediv_2_range (x : Z) :
  (Z.abs x < overflow_bound /\ exists z, Py.truediv_2 x ≫= Py.int = Ok z)
  \/ (overflow_bound <= Z.abs x /\ Py.truediv_2 x ≫= Py.int = Raise OverflowError).
Proof.
  pose proof overflow_bound_large as HB.
  assert (H53 : 0 < 2 ^ 53) by reflexivity.
  destruct x as [|p|p].
  - left. split; [simpl; lia|]. exists 0. reflexivity.
  - destruct (binary_round_range false p) as [[Hlt (m & e & Hr)]|[Hge Hr]].
    + left. split; [simpl; lia|]. unfold Py.truediv_2. simpl binary_normalize.
      rewrite Hr. simpl. eauto.
    + right. split; [simpl; lia|]. unfold Py.truediv_2. simpl binary_normalize.
      now rewrite Hr.
  - destruct (binary_round_range true p) as [[Hlt (m & e & Hr)]|[Hge Hr]].
    + left. split; [simpl; lia|]. unfold Py.truediv_2. simpl binary_normalize.
      rewrite Hr. simpl. eauto.
    + right. split; [simpl; lia|]. unfold Py.truediv_2. simpl binary_normalize.
      now rewrite Hr.
Qed.

Lemma prefill_range (b s : Z) :
  (Z.abs (s * b) < overflow_bound /\ exists z, max_batch_prefill_tokens b s = Ok z)
  \/ (overflow_bound <= Z.abs (s * b)
      /\ max_batch_prefill_tokens b s = Raise OverflowError).
Proof. apply int_truediv_2_range. Qed.

Lemma prefill_exact (b s : Z) :
  - 2 ^ 53 <= s * b <= 2 ^ 53 ->
  max_batch_prefill_tokens b s = Ok ((s * b) ÷ 2).
Proof. apply int_truediv_2_exact. Qed.

Lemma prefill_floor (b s : Z) :
  0 < b -> 0 < s -> b * s <= 2 ^ 53 ->
  max_batch_prefill_tokens b s = Ok (b * s / 2).
Proof.
  intros Hb Hs Hbs. rewrite prefill_exact by nia.
  rewrite Z.quot_div_nonneg by nia. now rewrite (Z.mul_comm s b).
Qed.

Lemma config_with_ok (m b s p : Z) :
  max_batch_prefill_tokens b s = Ok p ->
  config_with m b s = Ok (config_entries m b s p).
Proof. unfold config_with. now intros ->. Qed.

Lemma config_with_inv (m b s : Z) (c : gmap string string) :
  config_with m b s = Ok c ->
  exists p, max_batch_prefill_tokens b s = Ok p /\ c = config_entries m b s p.
Proof.
  unfold config_with. destruct (max_batch_prefill_tokens b s) as [p|e]; simpl.
  - intros [= <-]. eauto.
  - discriminate.
Qed.

Lemma config_with_raise (m b s : Z) (e : exn) :
  config_with m b s = Raise e -> max_batch_prefill_tokens b s = Raise e.
Proof.
  unfold config_with. destruct (max_batch_prefill_tokens b s); simpl; intros H;
    [inversion H|congruence].
Qed.

Lemma config_entries_dom (m b s p : Z) :
  dom (config_entries m b s p)
  = ({["HF_MODEL_ID"; "MAX_CONCURRENT_REQUESTS"; "MAX_INPUT_LENGTH";
      "MAX_TOTAL_TOKENS"; "MAX_BATCH_PREFILL_TOKENS"; "MAX_BATCH_TOTAL_TOKENS"]}
     : gset string).
Proof.
  unfold config_entries. rewrite !dom_insert_L, dom_empty_L. set_solver.
Qed.

Lemma config_entries_lookup (m b s p : Z) :
  let c := config_entries m b s p in
  c !! "HF_MODEL_ID" = Some "aws-neuron/zephyr-7b-seqlen-2048-bs-4-cores-2"
  /\ c !! "MAX_CONCURRENT_REQUESTS" = Some (Py.json_dumps b)
  /\ c !! "MAX_INPUT_LENGTH" = Some (Py.json_dumps m)
  /\ c !! "MAX_TOTAL_TOKENS" = Some (Py.json_dumps s)
  /\ c !! "MAX_BATCH_PREFILL_TOKENS" = Some (Py.json_dumps p)
  /\ c !! "MAX_BATCH_TOTAL_TOKENS" = Some (Py.json_dumps (s * b)).
Proof. repeat split. Qed.

Lemma config_entries_fields (m b s p : Z) :
  let c := config_entries m b s p in
  int_field c "MAX_CONCURRENT_REQUESTS" = Some b
  /\ int_field c "MAX_INPUT_LENGTH" = Some m
  /\ int_field c "MAX_TOTAL_TOKENS" = Some s
  /\ int_field c "MAX_BATCH_PREFILL_TOKENS" = Some p
  /\ int_field c "MAX_BATCH_TOTAL_TOKENS" = Some (s * b).
Proof.
  destruct (config_entries_lookup m b s p) as (_ & H1 & H2 & H3 & H4 & H5).
  unfold int_field. cbv zeta. rewrite H1, H2, H3, H4, H5. simpl.
  now rewrite !json_loads_dumps.
Qed.

(** The display returns exactly below the overflow bound, and raises
    [OverflowError] from it on. *)
Lemma config_with_range (m b s : Z) :
  (Z.abs (s * b) < overflow_bound
   /\ exists p, max_batch_prefill_tokens b s = Ok p
               /\ config_with m b s = Ok (config_entries m b s p))
  \/ (overflow_bound <= Z.abs (s * b) /\ config_with m b s = Raise OverflowError).
Proof.
  destruct (prefill_range b s) as [[Hlt [p Hp]]|[Hge Hr]].
  - left. split; [exact Hlt|]. exists p. split; [exact Hp|]. now apply config_with_ok.
  - right. split; [exact Hge|]. unfold config_with. now rewrite Hr.
Qed.

End Cell.

(** ** The serving limits *)

(** C1, as amended. For positive [batch_size] and [sequence_length] whose
    product is below the overflow bound, the cell returns a configuration with
    [MAX_CONCURRENT_REQUESTS] the batch size, [MAX_TOTAL_TOKENS] the sequence
    length and [MAX_BATCH_TOTAL_TOKENS] their product.
    [MAX_BATCH_PREFILL_TOKENS] is the integer the cell computes through the
    float division, which is the floor of half the product whenever the
    product is at most [2^53]. *)
Theorem derived_limits (b s : Z) :
  0 < b -> 0 < s -> b * s < overflow_bound ->
  exists c p, config_of b s = Ok c
    /\ c !! "MAX_CONCURRENT_REQUESTS" = Some (Py.json_dumps b)
    /\ c !! "MAX_TOTAL_TOKENS" = Some (Py.json_dumps s)
    /\ c !! "MAX_BATCH_TOTAL_TOKENS" = Some (Py.json_dumps (b * s))
    /\ c !! "MAX_BATCH_PREFILL_TOKENS" = Some (Py.json_dumps p)
    /\ int_field c "MAX_CONCURRENT_REQUESTS" = Some b
    /\ int_field c "MAX_TOTAL_TOKENS" = Some s
    /\ int_field c "MAX_BATCH_TOTAL_TOKENS" = Some (b * s)
    /\ int_field c "MAX_BATCH_PREFILL_TOKENS" = Some p
    /\ max_batch_prefill_tokens b s = Ok p
    /\ (b * s <= 2 ^ 53 -> p = b * s / 2).
Proof.
  intros Hb Hs Hlt. unfold config_of.
  destruct (config_with_range 1512 b s) as [[_ (p & Hp & Hc)]|[Hge _]]; [|nia].
  exists (config_entries 1512 b s p), p. split; [exact Hc|].
  destruct (config_entries_lookup 1512 b s p) as (_ & L1 & _ & L3 & L4 & L5).
  destruct (config_entries_fields 1512 b s p) as (F1 & _ & F3 & F4 & F5).
  cbv zeta in *. rewrite (Z.mul_comm s b) in L5, F5.
  repeat (split; [assumption|]).
  intros H53. rewrite prefill_floor in Hp by assumption. congruence.
Qed.

Lemma derived_limits_witness :
  exists c p, config_of 4 2048 = Ok c
    /\ c !! "MAX_CONCURRENT_REQUESTS" = Some (Py.json_dumps 4)
    /\ c !! "MAX_TOTAL_TOKENS" = Some (Py.json_dumps 2048)
    /\ c !! "MAX_BATCH_TOTAL_TOKENS" = Some (Py.json_dumps (4 * 2048))
    /\ c !! "MAX_BATCH_PREFILL_TOKENS" = Some (Py.json_dumps p)
    /\ int_field c "MAX_CONCURRENT_REQUESTS" = Some 4
    /\ int_field c "MAX_TOTAL_TOKENS" = Some 2048
    /\ int_field c "MAX_BATCH_TOTAL_TOKENS" = Some (4 * 2048)
    /\ int_field c "MAX_BATCH_PREFILL_TOKENS" = Some p
    /\ max_batch_prefill_tokens 4 2048 = Ok p
    /\ (4 * 2048 <= 2 ^ 53 -> p = 4 * 2048 / 2).
Proof.
  apply (derived_limits 4 2048); [lia|lia|reflexivity].
Defined.

(** C1 as stated fails in the prefill limit and in the existence of the
    configuration only. At [batch_size = 1] and [sequence_length = 2^53 + 3]
    the float quotient is a tie that rounds to the even neighbour, one above
    the floor, while the three other limits are as claimed; at
    [sequence_length = 2^1025] the division raises and there is no
    configuration. *)
Lemma prefill_above_floor :
  0 < 1 /\ 0 < 9007199254740995
  /\ 1 * 9007199254740995 / 2 = 4503599627370497
  /\ max_batch_prefill_tokens 1 9007199254740995 = Ok 4503599627370498
  /\ (exists c, config_of 1 9007199254740995 = Ok c
        /\ c !! "MAX_BATCH_PREFILL_TOKENS" = Some "4503599627370498"
        /\ c !! "MAX_BATCH_PREFILL_TOKENS"
           <> Some (Py.json_dumps (1 * 9007199254740995 / 2))
        /\ c !! "MAX_CONCURRENT_REQUESTS" = Some (Py.json_dumps 1)
        /\ c !! "MAX_TOTAL_TOKENS" = Some (Py.json_dumps 9007199254740995)
        /\ c !! "MAX_BATCH_TOTAL_TOKENS"
           = Some (Py.json_dumps (1 * 9007199254740995)))
  /\ (0 < 2 ^ 1025 /\ config_of 1 (2 ^ 1025) = Raise OverflowError).
Proof.
  split; [lia|]. split; [lia|]. split; [reflexivity|]. split; [reflexivity|].
  split.
  - eexists. split; [reflexivity|]. split; [reflexivity|].
    split; [vm_compute; discriminate|]. repeat split.
  - split; reflexivity.
Qed.

(** ** Failure of the cell *)

(** C2, as amended. The cell validates nothing: it fails exactly when the
    magnitude of [sequence_length * batch_size] reaches [2^1025 - 2^971], and
    then with the [OverflowError] of the float division, whatever the signs of
    the two integers and whether or not [1512] exceeds the sequence length. *)
Theorem config_of_fails_iff_overflow (b s : Z) :
  ((exists e, config_of b s = Raise e) <-> overflow_bound <= Z.abs (s * b))
  /\ (forall e, config_of b s = Raise e -> e = OverflowError)
  /\ ((exists c, config_of b s = Ok c) <-> Z.abs (s * b) < overflow_bound).
Proof.
  unfold config_of.
  destruct (config_with_range 1512 b s) as [[Hlt (p & _ & Hc)]|[Hge Hr]];
    rewrite ?Hc, ?Hr.
  - split; [|split].
    + split; [intros [e He]; discriminate|lia].
    + discriminate.
    + split; [intros _; exact Hlt|eauto].
  - split; [|split].
    + split; [intros _; exact Hge|eauto].
    + now intros e [= <-].
    + split; [intros [c Hc]; discriminate|lia].
Qed.

(** C2 as stated fails: with [batch_size = 0], and with
    [sequence_length = -5], and with [sequence_length = 1024 < 1512], the cell
    returns a configuration. *)
Lemma invalid_inputs_accepted :
  config_of 0 2048 = Ok (config_entries 1512 0 2048 0)
  /\ config_of 4 (-5) = Ok (config_entries 1512 4 (-5) (-10))
  /\ config_of 4 1024 = Ok (config_entries 1512 4 1024 2048)
  /\ (0 <= 0 /\ -5 <= 0 /\ 1512 > 1024).
Proof. repeat split; try reflexivity; lia. Qed.

(** ** The input length *)

(** C3, as amended. Below the overflow bound the cell returns a
    configuration whose [MAX_INPUT_LENGTH] is the constant 1512 and whose
    [MAX_TOTAL_TOKENS] is the sequence length, so that the input length is at
    most the sequence length exactly when the sequence length is at least
    1512; the cell returns the configuration in the other case too. *)
Theorem input_length_bounded_iff (b s : Z) :
  Z.abs (s * b) < overflow_bound ->
  exists c,
    config_of b s = Ok c
    /\ c !! "MAX_INPUT_LENGTH" = Some "1512"
    /\ int_field c "MAX_INPUT_LENGTH" = Some 1512
    /\ int_field c "MAX_TOTAL_TOKENS" = Some s
    /\ (forall mil sl,
          int_field c "MAX_INPUT_LENGTH" = Some mil ->
          int_field c "MAX_TOTAL_TOKENS" = Some sl ->
          mil = 1512 /\ sl = s /\ (mil <= sl <-> 1512 <= s)).
Proof.
  intros Hlt. unfold config_of.
  destruct (config_with_range 1512 b s) as [[_ (p & _ & Hc)]|[Hge _]]; [|lia].
  destruct (config_entries_fields 1512 b s p) as (_ & F2 & F3 & _).
  exists (config_entries 1512 b s p).
  split; [exact Hc|]. split; [reflexivity|]. split; [exact F2|]. split; [exact F3|].
  intros mil sl Hm Hl. cbv zeta in F2, F3. rewrite F2 in Hm. rewrite F3 in Hl.
  injection Hm as <-. injection Hl as <-. repeat split; auto.
Qed.

Lemma input_length_bounded_iff_witness :
  exists c,
    config_of 4 2048 = Ok c
    /\ c !! "MAX_INPUT_LENGTH" = Some "1512"
    /\ int_field c "MAX_INPUT_LENGTH" = Some 1512
    /\ int_field c "MAX_TOTAL_TOKENS" = Some 2048
    /\ (forall mil sl,
          int_field c "MAX_INPUT_LENGTH" = Some mil ->
          int_field c "MAX_TOTAL_TOKENS" = Some sl ->
          mil = 1512 /\ sl = 2048 /\ (mil <= sl <-> 1512 <= 2048)).
Proof.
  apply (input_length_bounded_iff 4 2048). reflexivity.
Defined.

(** C3 as stated fails: with [sequence_length = 1024] the cell constructs a
    configuration whose input length 1512 exceeds the sequence length. *)
Lemma input_length_above_sequence_length :
  exists c,
    config_of 4 1024 = Ok c
    /\ int_field c "MAX_INPUT_LENGTH" = Some 1512
    /\ int_field c "MAX_TOTAL_TOKENS" = Some 1024
    /\ 1512 > 1024.
Proof. eexists. repeat split. Qed.

(** C8. Whatever [batch_size] and [sequence_length], a configuration the cell
    produces has [MAX_INPUT_LENGTH] equal to 1512, so it breaks
    [max_input_length <= sequence_length] whenever the sequence length is
    below 1512; and the cell does produce a configuration whenever the
    product is below the overflow bound. *)
Theorem max_input_length_is_1512 (b s : Z) :
  (Z.abs (s * b) < overflow_bound -> exists c, config_of b s = Ok c)
  /\ (forall c : gmap string string,
        config_of b s = Ok c ->
        c !! "MAX_INPUT_LENGTH" = Some "1512"
        /\ exists mil sl,
             int_field c "MAX_INPUT_LENGTH" = Some mil
             /\ int_field c "MAX_TOTAL_TOKENS" = Some sl
             /\ mil = 1512 /\ sl = s
             /\ (s < 1512 -> ~ mil <= sl)).
Proof.
  split.
  - intros Hlt. unfold config_of.
    destruct (config_with_range 1512 b s) as [[_ (p & _ & Hc)]|[Hge _]]; [eauto|lia].
  - intros c Hc. apply config_with_inv in Hc as (p & _ & ->).
    split; [reflexivity|].
    destruct (config_entries_fields 1512 b s p) as (_ & F2 & F3 & _).
    exists 1512, s. repeat split; auto. lia.
Qed.

Lemma max_input_length_is_1512_witness :
  exists c,
    config_of 4 1024 = Ok c
    /\ c !! "MAX_INPUT_LENGTH" = Some "1512"
    /\ exists mil sl,
         int_field c "MAX_INPUT_LENGTH" = Some mil
         /\ int_field c "MAX_TOTAL_TOKENS" = Some sl
         /\ mil = 1512 /\ sl = 1024
         /\ (1024 < 1512 -> ~ mil <= sl).
Proof.
  destruct (proj1 (max_input_length_is_1512 4 1024) eq_refl) as [c Hc].
  exists c. split; [exact Hc|].
  exact (proj2 (max_input_length_is_1512 4 1024) c Hc).
Defined.

(** C7, as amended. The cell has no override and no margin:
    [MAX_INPUT_LENGTH] is the literal 1512 at every sequence length, and it
    equals the sequence length minus 536 only at the sequence length 2048. *)
Theorem max_input_length_no_margin (b s : Z) :
  Z.abs (s * b) < overflow_bound ->
  exists c,
    config_of b s = Ok c
    /\ c !! "MAX_INPUT_LENGTH" = Some (Py.json_dumps 1512)
    /\ (c !! "MAX_INPUT_LENGTH" = Some (Py.json_dumps (s - 536)) <-> s = 2048).
Proof.
  intros Hlt. unfold config_of.
  destruct (config_with_range 1512 b s) as [[_ (p & _ & Hc)]|[Hge _]]; [|lia].
  exists (config_entries 1512 b s p). split; [exact Hc|]. split; [reflexivity|].
  destruct (config_entries_lookup 1512 b s p) as (_ & _ & L & _). cbv zeta in L.
  rewrite L. split.
  - intros [= H]. apply json_dumps_inj in H. lia.
  - intros ->. reflexivity.
Qed.

Lemma max_input_length_no_margin_witness :
  Z.abs (4096 * 4) < overflow_bound
  /\ exists c,
       config_of 4 4096 = Ok c
       /\ c !! "MAX_INPUT_LENGTH" = Some (Py.json_dumps 1512)
       /\ (c !! "MAX_INPUT_LENGTH" = Some (Py.json_dumps (4096 - 536))
           <-> 4096 = 2048).
Proof.
  split; [reflexivity|]. apply (max_input_length_no_margin 4 4096). reflexivity.
Defined.

(** C7 as stated fails: the entry is the same at the sequence lengths 2048
    and 4096, and at 4096 it is not the sequence length minus 536. *)
Lemma input_length_does_not_vary :
  exists c1 c2,
    config_of 4 2048 = Ok c1
    /\ config_of 4 4096 = Ok c2
    /\ c1 !! "MAX_INPUT_LENGTH" = Some "1512"
    /\ c2 !! "MAX_INPUT_LENGTH" = Some "1512"
    /\ Py.json_dumps (4096 - 536) = "3560"
    /\ c2 !! "MAX_INPUT_LENGTH" <> Some (Py.json_dumps (4096 - 536)).
Proof.
  do 2 eexists. repeat split; [vm_compute; discriminate].
Qed.

(** ** Scenarios *)

(** C4. The cell at batch size 4 and sequence length 2048, whose literal is
    the scenario's input length 1512, returns the limits 4, 2048, 4096 and
    8192. At batch size 1 and sequence length 1024 the display returns the
    prefill limit 512 and the total limit 1024, with 900 in its input length
    entry as well as with the cell's own literal. *)
Theorem scenario_limits :
  (exists c,
     config_of 4 2048 = Ok c
     /\ c !! "MAX_INPUT_LENGTH" = Some "1512"
     /\ c !! "MAX_CONCURRENT_REQUESTS" = Some "4"
     /\ c !! "MAX_TOTAL_TOKENS" = Some "2048"
     /\ c !! "MAX_BATCH_PREFILL_TOKENS" = Some "4096"
     /\ c !! "MAX_BATCH_TOTAL_TOKENS" = Some "8192"
     /\ int_field c "MAX_CONCURRENT_REQUESTS" = Some 4
     /\ int_field c "MAX_TOTAL_TOKENS" = Some 2048
     /\ int_field c "MAX_BATCH_PREFILL_TOKENS" = Some 4096
     /\ int_field c "MAX_BATCH_TOTAL_TOKENS" = Some 8192)
  /\ (exists c,
        config_with 900 1 1024 = Ok c
        /\ c !! "MAX_INPUT_LENGTH" = Some "900"
        /\ c !! "MAX_BATCH_PREFILL_TOKENS" = Some "512"
        /\ c !! "MAX_BATCH_TOTAL_TOKENS" = Some "1024"
        /\ int_field c "MAX_BATCH_PREFILL_TOKENS" = Some 512
        /\ int_field c "MAX_BATCH_TOTAL_TOKENS" = Some 1024)
  /\ (exists c,
        config_of 1 1024 = Ok c
        /\ c !! "MAX_BATCH_PREFILL_TOKENS" = Some "512"
        /\ c !! "MAX_BATCH_TOTAL_TOKENS" = Some "1024").
Proof.
  split; [|split]; eexists; (split; [reflexivity|]); repeat split.
Qed.

(** ** The record handed to the endpoint *)




(** ** The prefill limit and the float division *)

(** C9. The [MAX_BATCH_PREFILL_TOKENS] entry of a configuration the cell
    returns is the numeral of [int(sequence_length*batch_size / 2)], the
    truncation of a float quotient. For positive integers whose product is at
    most [2^53] the cell returns a configuration and the entry is the floor of
    half the product; beyond, there are positive inputs where the entry is
    another integer, and positive inputs where the division raises. *)
Theorem prefill_through_float :
  (forall (b s : Z) (c : gmap string string),
      config_of b s = Ok c ->
      exists f p, Py.truediv_2 (s * b) = Ok f
                  /\ Py.int f = Ok p
                  /\ c !! "MAX_BATCH_PREFILL_TOKENS" = Some (Py.json_dumps p)
                  /\ int_field c "MAX_BATCH_PREFILL_TOKENS" = Some p)
  /\ (forall b s : Z,
        0 < b -> 0 < s -> b * s <= 2 ^ 53 ->
        exists c, config_of b s = Ok c
                  /\ c !! "MAX_BATCH_PREFILL_TOKENS" = Some (Py.json_dumps (b * s / 2))
                  /\ int_field c "MAX_BATCH_PREFILL_TOKENS" = Some (b * s / 2))
  /\ (exists (b s p : Z) (c : gmap string string),
        0 < b /\ 0 < s /\ 2 ^ 53 < b * s
        /\ config_of b s = Ok c
        /\ int_field c "MAX_BATCH_PREFILL_TOKENS" = Some p
        /\ p <> b * s / 2)
  /\ (exists b s : Z,
        0 < b /\ 0 < s /\ 2 ^ 53 < b * s
        /\ config_of b s = Raise OverflowError).
Proof.
  split; [|split; [|split]].
  - intros b s c Hc. apply config_with_inv in Hc as (p & Hp & ->).
    unfold max_batch_prefill_tokens in Hp.
    destruct (Py.truediv_2 (s * b)) as [f|e] eqn:Hf; [|discriminate Hp].
    exists f, p. split; [reflexivity|]. split; [exact Hp|].
    destruct (config_entries_lookup 1512 b s p) as (_ & _ & _ & _ & L4 & _).
    destruct (config_entries_fields 1512 b s p) as (_ & _ & _ & F4 & _).
    split; assumption.
  - intros b s Hb Hs Hbs. exists (config_entries 1512 b s (b * s / 2)).
    split; [apply config_with_ok, prefill_floor; assumption|].
    destruct (config_entries_lookup 1512 b s (b * s / 2)) as (_ & _ & _ & _ & L4 & _).
    destruct (config_entries_fields 1512 b s (b * s / 2)) as (_ & _ & _ & F4 & _).
    split; assumption.
  - exists 1, 9007199254740995, 4503599627370498.
    eexists. repeat split; try reflexivity. vm_compute. discriminate.
  - exists 1, (2 ^ 1025). repeat split; reflexivity.
Qed.

Lemma prefill_through_float_witness :
  exists c, config_of 3 5 = Ok c
            /\ c !! "MAX_BATCH_PREFILL_TOKENS" = Some (Py.json_dumps (3 * 5 / 2))
            /\ int_field c "MAX_BATCH_PREFILL_TOKENS" = Some (3 * 5 / 2).
Proof.
  apply (proj1 (proj2 prefill_through_float)); [lia|lia|vm_compute; discriminate].
Defined.

(** C10. For positive integers whose product is at most [2^53], twice the
    prefill limit of the configuration is at most its total limit, with
    equality exactly when the product is even, and one less otherwise. *)
Theorem prefill_at_most_half_total (b s : Z) :
  0 < b -> 0 < s -> b * s <= 2 ^ 53 ->
  exists c p t,
    config_of b s = Ok c
    /\ int_field c "MAX_BATCH_PREFILL_TOKENS" = Some p
    /\ int_field c "MAX_BATCH_TOTAL_TOKENS" = Some t
    /\ 2 * p <= t
    /\ (2 * p = t <-> Z.even (b * s) = true)
    /\ (Z.even (b * s) = false -> 2 * p = t - 1).
Proof.
  intros Hb Hs Hbs.
  exists (config_entries 1512 b s (b * s / 2)), (b * s / 2), (s * b).
  split; [apply config_with_ok, prefill_floor; assumption|].
  destruct (config_entries_fields 1512 b s (b * s / 2)) as (_ & _ & _ & F4 & F5).
  split; [exact F4|]. split; [exact F5|].
  rewrite (Z.mul_comm s b).
  pose proof (Z.div_mod (b * s) 2 ltac:(lia)) as Hdm.
  pose proof (Zmod_even (b * s)) as Hev.
  destruct (Z.even (b * s)); intuition (try discriminate; lia).
Qed.

Lemma prefill_at_most_half_total_witness :
  exists c p t,
    config_of 3 5 = Ok c
    /\ int_field c "MAX_BATCH_PREFILL_TOKENS" = Some p
    /\ int_field c "MAX_BATCH_TOTAL_TOKENS" = Some t
    /\ 2 * p <= t
    /\ (2 * p = t <-> Z.even (3 * 5) = true)
    /\ (Z.even (3 * 5) = false -> 2 * p = t - 1).
Proof.
  apply (prefill_at_most_half_total 3 5); [lia|lia|vm_compute; discriminate].
Defined.

(** ** Accuracy and symmetry of the prefill limit *)

Section Accuracy.

(** The sign only labels the result of rounding. *)
Lemma binary_round_sign (sx : bool) (p : positive) (e : Z) :
  binary_round Py.prec Py.emax sx p e
  = match binary_round Py.prec Py.emax false p e with
    | S754_zero _ => S754_zero sx
    | S754_infinity _ => S754_infinity sx
    | S754_nan => S754_nan
    | S754_finite _ m e' => S754_finite sx m e'
    end.
Proof.
  unfold binary_round, binary_round_aux.
  destruct (shl_align _ _ _) as [mz ez].
  destruct (shr_fexp _ _ _ _ _) as [mrs1 e1].
  destruct (shr_fexp _ _ _ _ _) as [mrs2 e2].
  destruct (shr_m mrs2); [reflexivity| |reflexivity].
  destruct (e2 <=? Py.emax - Py.prec); reflexivity.
Qed.

Lemma int_truediv_2_opp (x : Z) :
  Py.truediv_2 (- x) ≫= Py.int = Z.opp <$> (Py.truediv_2 x ≫= Py.int).
Proof.
  destruct x as [|p|p]; [reflexivity| |].
  - change (- Z.pos p) with (Z.neg p). unfold Py.truediv_2. simpl binary_normalize.
    rewrite (binary_round_sign true).
    pose proof (binary_round_sign false p (-1)) as Hf.
    destruct (binary_round Py.prec Py.emax false p (-1)) as [sx|sx| |sx m e];
      try reflexivity.
    injection Hf as ->. reflexivity.
  - change (- Z.neg p) with (Z.pos p). unfold Py.truediv_2. simpl binary_normalize.
    rewrite (binary_round_sign true).
    pose proof (binary_round_sign false p (-1)) as Hf.
    destruct (binary_round Py.prec Py.emax false p (-1)) as [sx|sx| |sx m e];
      try reflexivity.
    injection Hf as ->. simpl. unfold cond_Zopp. now rewrite Z.opp_involutive.
Qed.

(** Above 53 bits and below the overflow bound, [int(x / 2)] is within half a
    unit in the last place of the exact half. *)
Lemma int_binary_round_large (p : positive) :
  2 ^ 53 <= Z.pos p -> Z.pos p < overflow_bound ->
  exists z, Py.truediv_2 (Z.pos p) ≫= Py.int = Ok z
            /\ 2 ^ 53 * Z.abs (2 * z - Z.pos p) <= Z.pos p.
Proof.
  intros Hbig Hlt.
  destruct (binary_round_large false p Hbig)
    as (k & m1 & t & r & s & Hk & Hrange & Ht & HP & Hs & Hm1 & Hres).
  destruct (binary_round_range false p) as [[_ (m & e & Hfin)]|[Hge _]]; [|lia].
  unfold Py.truediv_2. simpl binary_normalize.
  rewrite Hres in Hfin |- *. cbv zeta in Hfin |- *.
  set (m2 := if r && (s || negb (Z.even m1)) then m1 + 1 else m1) in *.
  set (e2 := if m2 =? 2 ^ 53 then k else k - 1) in *.
  destruct (e2 <=? 971); [|discriminate]. clear Hfin m e.
  set (m3 := if m2 =? 2 ^ 53 then 2 ^ 52 else m2).
  assert (Hm2 : m1 <= m2 <= m1 + 1) by (subst m2; destruct (r && _); lia).
  assert (Hm3 : 0 < m3).
  { subst m3. destruct (m2 =? 2 ^ 53); [reflexivity|].
    change (2 ^ 52) with 4503599627370496 in Hm1. lia. }
  assert (He2 : 0 <= e2) by (subst e2; destruct (m2 =? 2 ^ 53); lia).
  exists (m3 * 2 ^ e2). split.
  { simpl. rewrite Z2Pos.id by exact Hm3. now rewrite Z.shiftl_mul_pow2 by exact He2. }
  assert (HW : 0 < 2 ^ (k - 1)) by (apply Z.pow_pos_nonneg; lia).
  assert (Hk0 : 2 ^ k = 2 * 2 ^ (k - 1))
    by (rewrite <- Z.pow_succ_r by lia; f_equal; lia).
  assert (Hk1 : 2 ^ (k + 1) = 4 * 2 ^ (k - 1))
    by (rewrite Z.pow_add_r, Hk0 by lia; lia).
  assert (Hval : m3 * 2 ^ e2 = m2 * 2 ^ (k - 1)).
  { subst m3 e2. destruct (Z.eqb_spec m2 (2 ^ 53)) as [->|_]; [|reflexivity].
    rewrite Hk0. change (2 ^ 53) with (2 * 2 ^ 52). lia. }
  rewrite Hval, Hk0, Hk1 in *.
  change (2 ^ 52) with 4503599627370496 in *.
  change (2 ^ 53) with 9007199254740992 in *.
  set (W := 2 ^ (k - 1)) in *. clearbody W.
  assert (Hdiff : Z.abs (2 * (m2 * W) - Z.pos p) <= W).
  { subst m2. destruct r; simpl andb in *; simpl Z.b2z in HP.
    - destruct (s || negb (Z.even m1)) eqn:Hc.
      + lia.
      + apply orb_false_iff in Hc as [-> _].
        assert (t = 0) by (destruct (Z.eq_dec t 0); [assumption|];
                           assert (false = true) by (apply Hs; lia); discriminate).
        lia.
    - lia. }
  lia.
Qed.

(** For every input below the overflow bound, of either sign, twice
    [int(x / 2)] differs from [x] by at most one when [|x| <= 2^53] and by at
    most [|x| / 2^53] beyond. *)
Lemma int_truediv_2_accuracy (x : Z) :
  Z.abs x < overflow_bound ->
  exists z, Py.truediv_2 x ≫= Py.int = Ok z
            /\ 2 ^ 53 * Z.abs (2 * z - x) <= Z.max (Z.abs x) (2 ^ 53).
Proof.
  assert (Hpos : forall p : positive, Z.pos p < overflow_bound ->
            exists z, Py.truediv_2 (Z.pos p) ≫= Py.int = Ok z
                      /\ 2 ^ 53 * Z.abs (2 * z - Z.pos p) <= Z.max (Z.pos p) (2 ^ 53)).
  { intros p Hlt. destruct (Z.lt_ge_cases (Z.pos p) (2 ^ 53)) as [Hs|Hb].
    - exists (Z.pos p ÷ 2). split.
      + apply int_truediv_2_exact.
        change (2 ^ 53) with 9007199254740992 in *. lia.
      + rewrite Z.quot_div_nonneg by lia.
        pose proof (Z.div_mod (Z.pos p) 2 ltac:(lia)).
        pose proof (Z.mod_pos_bound (Z.pos p) 2 ltac:(lia)).
        change (2 ^ 53) with 9007199254740992 in *. lia.
    - destruct (int_binary_round_large p Hb Hlt) as (z & Hz & Hacc).
      exists z. split; [exact Hz|]. lia. }
  intros Hlt. destruct x as [|p|p].
  - exists 0. split; [reflexivity|]. simpl. lia.
  - apply Hpos. exact Hlt.
  - destruct (Hpos p Hlt) as (z & Hz & Hacc). exists (- z). split.
    + change (Z.neg p) with (- Z.pos p). rewrite int_truediv_2_opp, Hz. reflexivity.
    + change (Z.abs (Z.neg p)) with (Z.pos p).
      replace (2 * - z - Z.neg p) with (- (2 * z - Z.pos p)) by lia.
      now rewrite Z.abs_opp.
Qed.

End Accuracy.

(** X1. Below the overflow bound, for integers of either sign, the cell's
    prefill integer is half the product up to rounding: twice the integer
    differs from the product by at most one when the product is within
    [2^53] in magnitude, and by at most the magnitude divided by [2^53]
    beyond. *)
Theorem prefill_accuracy (b s : Z) :
  Z.abs (s * b) < overflow_bound ->
  exists p, max_batch_prefill_tokens b s = Ok p
            /\ 2 ^ 53 * Z.abs (2 * p - s * b) <= Z.max (Z.abs (s * b)) (2 ^ 53).
Proof. apply int_truediv_2_accuracy. Qed.

Lemma prefill_accuracy_witness :
  exists p, max_batch_prefill_tokens 1 9007199254740995 = Ok p
            /\ 2 ^ 53 * Z.abs (2 * p - 9007199254740995 * 1)
               <= Z.max (Z.abs (9007199254740995 * 1)) (2 ^ 53).
Proof. apply (prefill_accuracy 1 9007199254740995). reflexivity. Defined.

(** X2. The prefill integer is an odd function of each of the two integers:
    negating one negates the result, exceptions included, because the float
    is rounded by magnitude and [int] truncates towards zero. Within 53 bits
    it is the quotient truncated towards zero, which for a negative odd
    product is one above the floor. *)
Theorem prefill_odd (b s : Z) :
  max_batch_prefill_tokens (- b) s = Z.opp <$> max_batch_prefill_tokens b s
  /\ max_batch_prefill_tokens b (- s) = Z.opp <$> max_batch_prefill_tokens b s
  /\ (- 2 ^ 53 <= s * b <= 2 ^ 53 ->
      max_batch_prefill_tokens b s = Ok ((s * b) ÷ 2)
      /\ (s * b < 0 -> Z.odd (s * b) = true -> (s * b) ÷ 2 = s * b / 2 + 1)).
Proof.
  unfold max_batch_prefill_tokens. split; [|split].
  - rewrite Z.mul_opp_r. apply int_truediv_2_opp.
  - rewrite Z.mul_opp_l. apply int_truediv_2_opp.
  - intros H53. split; [now apply int_truediv_2_exact|].
    intros Hneg Hodd. set (x := s * b) in *.
    assert (H2 : 2 <> 0) by lia.
    pose proof (Z.quot_rem x 2 H2) as Hq.
    assert (H02 : 0 < 2) by lia. assert (Hx0 : x <= 0) by lia.
    pose proof (Z.rem_bound_pos_neg x 2 H02 Hx0) as Hr.
    pose proof (Z.div_mod x 2 H2) as Hd.
    pose proof (Zmod_odd x) as Ho. rewrite Hodd in Ho. lia.
Qed.

Lemma prefill_odd_witness :
  max_batch_prefill_tokens 1 (-3) = Ok ((-3 * 1) ÷ 2)
  /\ (-3 * 1 < 0 -> Z.odd (-3 * 1) = true -> (-3 * 1) ÷ 2 = -3 * 1 / 2 + 1).
Proof.
  apply (proj2 (proj2 (prefill_odd 1 (-3)))). split; vm_compute; discriminate.
Defined.

(** X3. For positive integers whose product is below the overflow bound, the
    configuration the cell returns has a prefill limit between zero and its
    total limit. *)
Theorem prefill_within_total (b s : Z) :
  0 < b -> 0 < s -> b * s < overflow_bound ->
  exists c p t,
    config_of b s = Ok c
    /\ int_field c "MAX_BATCH_PREFILL_TOKENS" = Some p
    /\ int_field c "MAX_BATCH_TOTAL_TOKENS" = Some t
    /\ t = b * s
    /\ 0 <= p <= t.
Proof.
  intros Hb Hs Hlt.
  assert (Hpos : 0 < s * b) by nia.
  destruct (prefill_accuracy b s) as (p & Hp & Hacc); [lia|].
  exists (config_entries 1512 b s p), p, (s * b).
  split; [now apply config_with_ok|].
  destruct (config_entries_fields 1512 b s p) as (_ & _ & _ & F4 & F5).
  split; [exact F4|]. split; [exact F5|]. split; [lia|].
  change (2 ^ 53) with 9007199254740992 in Hacc. lia.
Qed.

Lemma prefill_within_total_witness :
  exists c p t,
    config_of 1 9007199254740995 = Ok c
    /\ int_field c "MAX_BATCH_PREFILL_TOKENS" = Some p
    /\ int_field c "MAX_BATCH_TOTAL_TOKENS" = Some t
    /\ t = 1 * 9007199254740995
    /\ 0 <= p <= t.
Proof.
  apply (prefill_within_total 1 9007199254740995); [lia|lia|reflexivity].
Defined.

(** X4. Every configuration the cell returns, for integers of either sign,
    has exactly the six keys and decodes back to what it was built from: the
    concurrent-request limit to the batch size, the total-token limit to the
    sequence length, the input length to 1512 and the total limit to the
    product of the first two. *)
Theorem config_decodes (b s : Z) (c : gmap string string) :
  config_of b s = Ok c ->
  dom c = ({["HF_MODEL_ID"; "MAX_CONCURRENT_REQUESTS"; "MAX_INPUT_LENGTH";
             "MAX_TOTAL_TOKENS"; "MAX_BATCH_PREFILL_TOKENS";
             "MAX_BATCH_TOTAL_TOKENS"]} : gset string)
  /\ int_field c "MAX_CONCURRENT_REQUESTS" = Some b
  /\ int_field c "MAX_TOTAL_TOKENS" = Some s
  /\ int_field c "MAX_INPUT_LENGTH" = Some 1512
  /\ exists n l t,
       int_field c "MAX_CONCURRENT_REQUESTS" = Some n
       /\ int_field c "MAX_TOTAL_TOKENS" = Some l
       /\ int_field c "MAX_BATCH_TOTAL_TOKENS" = Some t
       /\ t = l * n.
Proof.
  intros Hc. apply config_with_inv in Hc as (p & _ & ->).
  split; [apply config_entries_dom|].
  destruct (config_entries_fields 1512 b s p) as (F1 & F2 & F3 & _ & F5).
  repeat (split; [assumption|]).
  exists b, s, (s * b). auto.
Qed.

Lemma config_decodes_witness :
  int_field (config_entries 1512 (-4) 2048 (-4096)) "MAX_CONCURRENT_REQUESTS"
  = Some (-4).
Proof.
  apply (config_decodes (-4) 2048 (config_entries 1512 (-4) 2048 (-4096))).
  reflexivity.
Defined.

(** ** The calls of the session cell *)

Section SessionCell.

Context {E S : Type}.
Variable is_ValueError : E -> bool.
Variable k : sdk E S.

Ltac cell_unfold :=
  unfold session_cell, mbind, io_bind, mret, io_ret, call, print, try_except;
  simpl.

Ltac cell_destruct :=
  repeat (match goal with
          | |- context [match Session k ?b with _ => _ end] =>
              destruct (Session k b) eqn:?
          | |- context [match default_bucket k ?s with _ => _ end] =>
              destruct (default_bucket k s) eqn:?
          | |- context [match get_execution_role k with _ => _ end] =>
              destruct (get_execution_role k) eqn:?
          | |- context [match iam_role_arn k ?n with _ => _ end] =>
              destruct (iam_role_arn k n) eqn:?
          | |- context [if is_ValueError ?e then _ else _] =>
              destruct (is_ValueError e) eqn:?
          end; simpl).

Ltac cell_cases := cell_unfold; cell_destruct.

Ltac in_log :=
  unfold not; intros;
  match goal with
  | H : _ ∈ _ |- _ =>
      repeat (apply elem_of_cons in H as [H|H];
              [first [discriminate H
                     | try (injection H as ?); subst;
                       solve [eauto | congruence | reflexivity]]|]);
      now apply elem_of_nil in H
  end.

(** X6. When every call succeeds, the cell makes its calls in one fixed
    order: the first session, the default bucket only when no bucket was
    given, the execution role, the IAM lookup only when that raised, the
    second session with the bucket, and the two printed lines last. *)
Theorem session_cell_trace (bucket : option string) (st : session_state S) :
  result (session_cell is_ValueError k bucket) = Return st ->
  exists b,
    sagemaker_session_bucket st = Some b
    /\ Session k (Some b) = Return (sess st)
    /\ log (session_cell is_ValueError k bucket)
       = ([NewSession None]
          ++ (match bucket with Some _ => [] | None => [DefaultBucket] end)
          ++ [GetExecutionRole]
          ++ (match get_execution_role k with
              | Return _ => []
              | Throw _ => [IamGetRole "sagemaker_execution_role"]
              end)
          ++ [NewSession (Some b);
              Print ("sagemaker role arn: " +:+ role st);
              Print ("sagemaker session region: " +:+ boto_region_name k (sess st))])%list.
Proof.
  destruct bucket as [b|]; cell_cases; intros H; try discriminate H;
    injection H as <-; simpl;
    eexists; (split; [reflexivity|]); (split; [eassumption|]); reflexivity.
Qed.

(** X7. A bucket name that is given is kept and the default bucket is never
    asked for; when none is given, the bucket is the default bucket of the
    first session. *)
Theorem session_cell_bucket :
  (forall b : string,
      (DefaultBucket ∉ log (session_cell is_ValueError k (Some b)))
      /\ (forall st, result (session_cell is_ValueError k (Some b)) = Return st ->
                     sagemaker_session_bucket st = Some b))
  /\ (forall st, result (session_cell is_ValueError k None) = Return st ->
                 exists s0 d, Session k None = Return s0
                              /\ default_bucket k s0 = Return d
                              /\ sagemaker_session_bucket st = Some d).
Proof.
  split.
  - intros b. split.
    + cell_cases; in_log.
    + intros st. cell_cases; intros H; try discriminate H; now injection H as <-.
  - intros st. cell_cases; intros H; try discriminate H; injection H as <-; eauto.
Qed.

(** X8. The role the cell binds is the execution role when that is returned;
    the IAM role named [sagemaker_execution_role] is looked up, and bound,
    only after the execution role raised a [ValueError]. *)
Theorem session_cell_role (bucket : option string) :
  (forall st, result (session_cell is_ValueError k bucket) = Return st ->
              get_execution_role k = Return (role st)
              \/ exists e, get_execution_role k = Throw e
                           /\ is_ValueError e = true
                           /\ iam_role_arn k "sagemaker_execution_role"
                              = Return (role st))
  /\ (forall n, IamGetRole n ∈ log (session_cell is_ValueError k bucket) ->
                n = "sagemaker_execution_role"
                /\ exists e, get_execution_role k = Throw e
                             /\ is_ValueError e = true).
Proof.
  split.
  - intros st. destruct bucket; cell_cases; intros H; try discriminate H;
      injection H as <-; simpl; eauto.
  - intros n. destruct bucket; cell_cases; in_log.
Qed.

(** X9. An exception of the execution role that is not a [ValueError] is not
    caught: the cell raises, without the IAM lookup, without the second
    session and without printing; it raises that very exception once the
    execution role has been asked for. *)
Theorem session_cell_uncaught (bucket : option string) (e : E) :
  get_execution_role k = Throw e -> is_ValueError e = false ->
  (exists e', result (session_cell is_ValueError k bucket) = Throw e')
  /\ (forall n, IamGetRole n ∉ log (session_cell is_ValueError k bucket))
  /\ (forall b, NewSession b ∈ log (session_cell is_ValueError k bucket) -> b = None)
  /\ (forall l, Print l ∉ log (session_cell is_ValueError k bucket))
  /\ (GetExecutionRole ∈ log (session_cell is_ValueError k bucket) ->
      result (session_cell is_ValueError k bucket) = Throw e).
Proof.
  intros Hrole Hv.
  destruct bucket; cell_unfold; rewrite Hrole; simpl; rewrite ?Hv; simpl;
    cell_destruct; rewrite ?Hv; simpl;
    (split; [eauto|]); (split; [in_log|]); (split; [in_log|]); (split; in_log).
Qed.

(** X10. The cell prints if and only if it returns: a run that raises, at
    whatever statement, has printed nothing, and a run that returns has
    printed. *)
Theorem session_cell_prints_iff_returns (bucket : option string) :
  (exists l, Print l ∈ log (session_cell is_ValueError k bucket))
  <-> (exists st, result (session_cell is_ValueError k bucket) = Return st).
Proof.
  split.
  - intros [l Hin]. revert Hin.
    destruct bucket; cell_cases; intros Hin; eauto; in_log.
  - intros [st H]. revert H.
    destruct bucket; cell_cases; intros H; try discriminate H;
      eexists; do 10 (try (apply elem_of_cons; first [left; reflexivity | right])).
Qed.

End SessionCell.

Lemma session_cell_trace_witness :
  exists b,
    Some "sagemaker-us-east-1-558105141721" = Some b
    /\ Session recorded_sdk (Some b) = Return (Some "sagemaker-us-east-1-558105141721")
    /\ log (session_cell exn_is_ValueError recorded_sdk None)
       = ([NewSession None]
          ++ [DefaultBucket]
          ++ [GetExecutionRole]
          ++ [IamGetRole "sagemaker_execution_role"]
          ++ [NewSession (Some b);
              Print ("sagemaker role arn: "
                     +:+ "arn:aws:iam::558105141721:role/sagemaker_execution_role");
              Print ("sagemaker session region: " +:+ "us-east-1")])%list.
Proof.
  apply (session_cell_trace exn_is_ValueError recorded_sdk None
           {| sess := Some "sagemaker-us-east-1-558105141721";
              sagemaker_session_bucket := Some "sagemaker-us-east-1-558105141721";
              role := "arn:aws:iam::558105141721:role/sagemaker_execution_role" |}).
  reflexivity.
Defined.

Lemma session_cell_uncaught_witness :
  result (session_cell exn_is_ValueError denied_sdk None) = Throw TypeError.
Proof.
  apply (session_cell_uncaught exn_is_ValueError denied_sdk None TypeError);
    [reflexivity|reflexivity|].
  apply elem_of_cons. right. apply elem_of_cons. right. apply elem_of_cons. now left.
Defined.

(** ** The text printed by the inference cell *)

Section InferenceCell.

Lemma slice_from_app (p r : string) : slice_from (String.length p) (p +:+ r) = r.
Proof. induction p as [|a p IH]; simpl; [reflexivity|exact IH]. Qed.

Lemma slice_from_length (n : nat) (s : string) :
  String.length (slice_from n s) = (String.length s - n)%nat.
Proof.
  revert s. induction n as [|n IH]; intros s; simpl; [lia|].
  destruct s as [|a s]; simpl; [reflexivity|apply IH].
Qed.

Lemma slice_from_suffix (n : nat) (s : string) :
  exists pre, s = pre +:+ slice_from n s
              /\ String.length pre = Nat.min n (String.length s).
Proof.
  revert s. induction n as [|n IH]; intros s; simpl.
  - exists "". split; reflexivity.
  - destruct s as [|a s]; simpl.
    + exists "". split; reflexivity.
    + destruct (IH s) as (pre & Hs & Hl). exists (String a pre). simpl.
      split; [now rewrite Hs at 1|now rewrite Hl].
Qed.

(** X11. When the generated text of the first answer starts with the prompt,
    the cell prints exactly what follows the prompt. *)
Theorem generated_text_after_prompt
    (d : gmap string string) (ds : list (gmap string string)) (prompt rest : string) :
  d !! "generated_text" = Some (prompt +:+ rest) ->
  generated_text (d :: ds) prompt = Return rest.
Proof. intros H. simpl. rewrite H. now rewrite slice_from_app. Qed.

Lemma generated_text_after_prompt_witness :
  generated_text [{["generated_text" := "<|user|>Hi</s>" +:+ "Hello"]}] "<|user|>Hi</s>"
  = Return "Hello".
Proof.
  apply (generated_text_after_prompt _ [] "<|user|>Hi</s>" "Hello"). reflexivity.
Defined.

(** X12. Whatever the generated text of the first answer, the cell prints
    one of its suffixes: the text without its first [len(prompt)] characters,
    which is empty when the text is no longer than the prompt. No exception
    is raised for a short text. *)
Theorem generated_text_is_suffix
    (d : gmap string string) (ds : list (gmap string string)) (prompt g : string) :
  d !! "generated_text" = Some g ->
  exists printed pre,
    generated_text (d :: ds) prompt = Return printed
    /\ g = pre +:+ printed
    /\ String.length pre = Nat.min (String.length prompt) (String.length g)
    /\ String.length printed = (String.length g - String.length prompt)%nat
    /\ ((String.length g <= String.length prompt)%nat -> printed = "").
Proof.
  intros H. simpl. rewrite H.
  destruct (slice_from_suffix (String.length prompt) g) as (pre & Hg & Hl).
  exists (slice_from (String.length prompt) g), pre.
  repeat split; try assumption.
  - apply slice_from_length.
  - intros Hle. pose proof (slice_from_length (String.length prompt) g) as Hn.
    destruct (slice_from (String.length prompt) g); [reflexivity|simpl in Hn; lia].
Qed.

Lemma generated_text_is_suffix_witness :
  exists printed pre,
    generated_text [{["generated_text" := "Sure"]}] "<|user|>Hi</s>" = Return printed
    /\ "Sure" = pre +:+ printed
    /\ String.length pre = Nat.min (String.length "<|user|>Hi</s>") (String.length "Sure")
    /\ String.length printed
       = (String.length "Sure" - String.length "<|user|>Hi</s>")%nat
    /\ ((String.length "Sure" <= String.length "<|user|>Hi</s>")%nat -> printed = "").
Proof.
  apply (generated_text_is_suffix _ [] "<|user|>Hi</s>" "Sure"). reflexivity.
Defined.

End InferenceCell.
